(** * rasterstats.utils: pixel windows, geometry ingestion, type codes

    A shallow embedding of [src/rasterstats/utils.py] and the properties of
    its functions.

    Numbers.  Python computes the world coordinates (the geotransform and
    the bounding box) in binary64 floating point; pixel indices and raster
    sizes are Python ints, modelled as [Z].  The module [Binary64] embeds
    the window functions over Rocq's primitive binary64 floats, with the
    exceptions of the division and of [math.floor] and [math.ceil].  The
    module [Window] is the same code read over exact rationals [Q], the
    arithmetic the code approximates; what is stated there is stated about
    that reading.

    Exceptions.  A Python call either returns a value or raises; this is
    the [result] type, with a bind that propagates the exception, and
    [try_except] for a [try: ... except (...):] block.

    Generators.  [ogr_records] and [geo_records] are generator functions;
    a generator object is modelled by the state its body is suspended in
    and [next] is its step function.

    The semantics is Python 3's: [str] is text, [bytes] is a type of its
    own, [/] is true division. *)

From Stdlib Require Import ZArith QArith Qround Lqa Lia Bool List String Ascii.
From Stdlib Require Import Floats.
Import ListNotations.

Set Warnings "-register-all,-inexact-float".
Local Open Scope Z_scope.

(** ** Python values *)

(** The Python objects that reach the functions of the module.  A [PDict] is
    a mapping with string keys, in insertion order (lookup takes the first
    binding); a [PGeo] is an object whose only relevant capability is its
    [__geo_interface__] attribute. *)
Inductive pyobj : Type :=
| PNone
| PInt (n : Z)
| PStr (s : string)
| PBytes (b : string)
| PList (items : list pyobj)
| PDict (d : list (string * pyobj))
| PGeo (geo_interface : pyobj).

(** ** Exceptions *)

(** The exception classes named in the module, and the built-in ones its
    [except] clauses list or let through.  The two classes the module
    declares carry the message template and the value substituted in it. *)
Inductive exn : Type :=
| RasterStatsError (template : string) (arg : option pyobj)
| OGRError (template : string) (arg : option pyobj)
| ReadingError
| TypeError
| ValueError
| AttributeError
| AssertionError
| KeyError (key : string)
| ZeroDivisionError
| OverflowError.

Inductive exn_class : Type :=
| CRasterStatsError | COGRError | CReadingError | CTypeError | CValueError
| CAttributeError | CAssertionError | CKeyError | CZeroDivisionError
| COverflowError.

Definition class_of (e : exn) : exn_class :=
  match e with
  | RasterStatsError _ _ => CRasterStatsError
  | OGRError _ _ => COGRError
  | ReadingError => CReadingError
  | TypeError => CTypeError
  | ValueError => CValueError
  | AttributeError => CAttributeError
  | AssertionError => CAssertionError
  | KeyError _ => CKeyError
  | ZeroDivisionError => CZeroDivisionError
  | OverflowError => COverflowError
  end.

Definition exn_class_eqb (a b : exn_class) : bool :=
  match a, b with
  | CRasterStatsError, CRasterStatsError | COGRError, COGRError
  | CReadingError, CReadingError | CTypeError, CTypeError
  | CValueError, CValueError | CAttributeError, CAttributeError
  | CAssertionError, CAssertionError | CKeyError, CKeyError
  | CZeroDivisionError, CZeroDivisionError
  | COverflowError, COverflowError => true
  | _, _ => false
  end.

(** None of the classes above is a subclass of another one of them, so an
    [except] clause catches exactly the classes it lists. *)
Definition caught (handled : list exn_class) (e : exn) : bool :=
  existsb (exn_class_eqb (class_of e)) handled.

Inductive result (A : Type) : Type :=
| Ok (a : A)
| Raise (e : exn).

Arguments Ok {A} a.
Arguments Raise {A} e.

Definition bind {A B : Type} (r : result A) (k : A -> result B) : result B :=
  match r with
  | Ok a => k a
  | Raise e => Raise e
  end.

Declare Scope py_scope.
Delimit Scope py_scope with py.
Notation "x <- r ;; k" := (bind r (fun x => k))
  (at level 61, r at next level, right associativity) : py_scope.
Notation "' p <- r ;; k" := (bind r (fun x => let p := x in k))
  (at level 61, p pattern, r at next level, right associativity) : py_scope.

(** [try: body] with one clause [except handled:]: an exception of a
    listed class continues with [rest] (the clause's own body, or after
    [pass] the statements that follow the block); any other one
    propagates. *)
Definition try_except {A : Type} (body : result A) (handled : list exn_class)
    (rest : result A) : result A :=
  match body with
  | Ok a => Ok a
  | Raise e => if caught handled e then rest else Raise e
  end.

(** ** Pixel windows, read over exact rationals *)

Module Window.

Local Open Scope py_scope.

Definition geotransform : Type := (Q * Q * Q * Q * Q * Q)%type.
Definition bounds : Type := (Q * Q * Q * Q)%type.
Definition offsets : Type := (Z * Z * Z * Z)%type.

(** Python's [/] on numbers. *)
Definition truediv (a b : Q) : result Q :=
  if Qeq_bool b 0 then Raise ZeroDivisionError else Ok (a / b)%Q.

Definition floor_int (q : Q) : Z := Qfloor q.
Definition ceil_int (q : Q) : Z := Qceiling q.

Definition bbox_to_pixel_offsets (gt : geotransform) (bbox : bounds)
    (rsize : Z * Z) : result offsets :=
  let '(gt0, gt1, _, gt3, _, gt5) := gt in
  let '(bbox0, bbox1, bbox2, bbox3) := bbox in
  let '(rsize0, rsize1) := rsize in
  let originX := gt0 in
  let originY := gt3 in
  let pixel_width := gt1 in
  let pixel_height := gt5 in
  q1 <- truediv (bbox0 - originX)%Q pixel_width ;;
  let x1 := floor_int q1 in
  q2 <- truediv (bbox2 - originX)%Q pixel_width ;;
  let x2 := ceil_int q2 in
  q3 <- truediv (bbox3 - originY)%Q pixel_height ;;
  let y1 := floor_int q3 in
  q4 <- truediv (bbox1 - originY)%Q pixel_height ;;
  let y2 := ceil_int q4 in
  let x1 := if x1 <? 0 then 0 else x1 in
  let x2 := if x2 >? rsize0 then rsize0 else x2 in
  let y1 := if y1 <? 0 then 0 else y1 in
  let y2 := if y2 >? rsize1 then rsize1 else y2 in
  let xsize := x2 - x1 in
  let ysize := y2 - y1 in
  Ok (x1, y1, xsize, ysize).

(** The argument is any sequence of ints: one of length four unpacks, any
    other length takes the [len(offsets) != 4] branch. *)
Definition pixel_offsets_to_window (offsets : list Z)
    : result ((Z * Z) * (Z * Z)) :=
  match offsets with
  | [x1; y1; xsize; ysize] => Ok ((y1, y1 + ysize), (x1, x1 + xsize))
  | _ => Raise (RasterStatsError "offset should be a 4-element tuple" None)
  end.

(** The 4-tuple returned by [bbox_to_pixel_offsets], as the sequence that
    [pixel_offsets_to_window] receives. *)
Definition as_sequence (o : offsets) : list Z :=
  let '(x1, y1, xsize, ysize) := o in [x1; y1; xsize; ysize].


(** *** The exact reading: when it returns and when it raises *)








End Window.

(** ** Pixel windows in binary64 *)

(** The transform and the bounding box hold floats (an int given there is
    read as the float it converts to); the raster size holds ints. *)
Module Binary64.

Local Open Scope py_scope.

Definition geotransform : Type :=
  (float * float * float * float * float * float)%type.
Definition bounds : Type := (float * float * float * float)%type.


(** Python's [/] on floats: the IEEE quotient, except that a divisor
    equal to zero, of either sign, raises. *)
Definition truediv (a b : float) : result float :=
  if (b =? 0)%float then Raise ZeroDivisionError else Ok (a / b)%float.

(** The integer [sign * m * 2^e] of a finite float, rounded down. *)
Definition floor_scaled (s : bool) (m : positive) (e : Z) : Z :=
  let n := if s then Z.neg m else Z.pos m in
  if 0 <=? e then n * 2 ^ e else n / 2 ^ (- e).

(** [int(math.floor(x))]: exact on a finite float, [OverflowError] on an
    infinity and [ValueError] on NaN. *)
Definition math_floor (x : float) : result Z :=
  match Prim2SF x with
  | S754_zero _ => Ok 0
  | S754_finite s m e => Ok (floor_scaled s m e)
  | S754_infinity _ => Raise OverflowError
  | S754_nan => Raise ValueError
  end.

(** [int(math.ceil(x))]: the ceiling is the opposite of the floor of the
    opposite. *)
Definition math_ceil (x : float) : result Z :=
  match Prim2SF x with
  | S754_zero _ => Ok 0
  | S754_finite s m e => Ok (- floor_scaled (negb s) m e)
  | S754_infinity _ => Raise OverflowError
  | S754_nan => Raise ValueError
  end.

Definition bbox_to_pixel_offsets (gt : geotransform) (bbox : bounds)
    (rsize : Z * Z) : result Window.offsets :=
  let '(gt0, gt1, _, gt3, _, gt5) := gt in
  let '(bbox0, bbox1, bbox2, bbox3) := bbox in
  let '(rsize0, rsize1) := rsize in
  let originX := gt0 in
  let originY := gt3 in
  let pixel_width := gt1 in
  let pixel_height := gt5 in
  q1 <- truediv (bbox0 - originX)%float pixel_width ;;
  x1 <- math_floor q1 ;;
  q2 <- truediv (bbox2 - originX)%float pixel_width ;;
  x2 <- math_ceil q2 ;;
  q3 <- truediv (bbox3 - originY)%float pixel_height ;;
  y1 <- math_floor q3 ;;
  q4 <- truediv (bbox1 - originY)%float pixel_height ;;
  y2 <- math_ceil q4 ;;
  let x1 := if x1 <? 0 then 0 else x1 in
  let x2 := if x2 >? rsize0 then rsize0 else x2 in
  let y1 := if y1 <? 0 then 0 else y1 in
  let y2 := if y2 >? rsize1 then rsize1 else y2 in
  let xsize := x2 - x1 in
  let ysize := y2 - y1 in
  Ok (x1, y1, xsize, ysize).











End Binary64.

(** ** Python object protocol *)

Module Py.

Local Open Scope string_scope.

Fixpoint dict_get (d : list (string * pyobj)) (key : string) : option pyobj :=
  match d with
  | [] => None
  | (k, v) :: rest => if String.eqb k key then Some v else dict_get rest key
  end.

(** [d[key] = v]: the binding is replaced in place, or added at the end. *)
Fixpoint dict_set (d : list (string * pyobj)) (key : string) (v : pyobj)
    : list (string * pyobj) :=
  match d with
  | [] => [(key, v)]
  | (k, u) :: rest =>
      if String.eqb k key then (k, v) :: rest else (k, u) :: dict_set rest key v
  end.

(** [o[key]] with a string key: a mapping looks the key up, every other
    object of the model refuses a string subscript. *)
Definition getitem (o : pyobj) (key : string) : result pyobj :=
  match o with
  | PDict d =>
      match dict_get d key with
      | Some v => Ok v
      | None => Raise (KeyError key)
      end
  | _ => Raise TypeError
  end.

(** [o.__geo_interface__] *)
Definition geo_interface (o : pyobj) : result pyobj :=
  match o with
  | PGeo geo => Ok geo
  | _ => Raise AttributeError
  end.

(** [v in names], for a list of string literals. *)
Definition in_names (v : pyobj) (names : list string) : bool :=
  match v with
  | PStr s => existsb (String.eqb s) names
  | _ => false
  end.

(** [assert cond] *)
Definition assert (cond : bool) : result unit :=
  if cond then Ok tt else Raise AssertionError.

Definition lower_ascii (c : ascii) : ascii :=
  let n := nat_of_ascii c in
  if (Nat.leb 65 n && Nat.leb n 90)%bool then ascii_of_nat (n + 32) else c.

Fixpoint lower_string (s : string) : string :=
  match s with
  | EmptyString => EmptyString
  | String c rest => String (lower_ascii c) (lower_string rest)
  end.

(** [o.lower()]: a method of text and of bytes (ASCII letters only in
    this model). *)
Definition lower (o : pyobj) : result pyobj :=
  match o with
  | PStr s => Ok (PStr (lower_string s))
  | PBytes b => Ok (PBytes (lower_string b))
  | _ => Raise AttributeError
  end.

(** [o == literal], for a string literal: only a text equals a text. *)
Definition eq_literal (o : pyobj) (literal : string) : bool :=
  match o with
  | PStr s => String.eqb s literal
  | _ => false
  end.

Fixpoint chars (s : string) : list string :=
  match s with
  | EmptyString => []
  | String c rest => String c EmptyString :: chars rest
  end.

Fixpoint codes (s : string) : list Z :=
  match s with
  | EmptyString => []
  | String c rest => Z.of_nat (nat_of_ascii c) :: codes rest
  end.

(** The items a [for] loop over [o] visits, or [TypeError] when [o] is not
    iterable. *)
Definition iter_items (o : pyobj) : result (list pyobj) :=
  match o with
  | PList items => Ok items
  | PStr s => Ok (map PStr (chars s))
  | PBytes b => Ok (map PInt (codes b))
  | PDict d => Ok (map (fun kv => PStr (fst kv)) d)
  | PNone | PInt _ | PGeo _ => Raise TypeError
  end.

(** Truth value of an int. *)
Definition truthy_int (n : Z) : bool := negb (n =? 0)%Z.

End Py.

(** ** The vector driver and the geometry decoders *)

(** What the module imports from [osgeo], [shapely] and [json] is taken as
    given.  An OGR feature holds its geometry as the JSON text that
    [ExportToJson] prints, its FID and its fields; a layer reports a
    feature count, hands out its features in order and may have a spatial
    reference; a data source is its list of layers. *)
Record feature : Type := {
  GetGeometryRef : option string;
  GetFID : Z;
  fields : list (string * pyobj)
}.

Record layer : Type := {
  GetFeatureCount : Z;
  layer_features : list feature;
  GetSpatialRef : option string
}.

Definition datasource : Type := list layer.

(** [ds.GetLayer(i)]: the layer, or [None] when there is none at [i]. *)
Definition GetLayer (ds : datasource) (i : Z) : option layer :=
  if i <? 0 then None else nth_error ds (Z.to_nat i).

(** [wkb_loads] and [wkt_loads] are [shapely.wkb.loads] and
    [shapely.wkt.loads]: they return a shape, an object with a
    [__geo_interface__], or raise.  [json_decode] is the JSON parser on a
    text ([None]: not a JSON document).  [ogr_Open] is [ogr.Open] on a
    path, [None] when the driver opens nothing there; the files do not
    change between two calls. *)
Record backend : Type := {
  wkb_loads : pyobj -> result pyobj;
  wkt_loads : pyobj -> result pyobj;
  json_decode : string -> option pyobj;
  ogr_Open : string -> option datasource
}.

(** The spatial reference a call returns: the empty
    [osr.SpatialReference()] it starts from, or what the layer gave. *)
Inductive spatial_reference : Type :=
| EmptySpatialReference
| LayerSpatialReference (srs : option string).

(** ** Geometry ingestion *)

(** A generator object is the state its body is suspended in.  Calling a
    generator function runs none of its body: [OgrRecordsNew] and
    [GeoRecordsNew] hold the arguments of the call.  [OgrRecordsLoop] and
    [GeoRecordsLoop] are suspended at the [yield], with what the cursor or
    the loop has still to visit.  [ListIter] is the iterator of a Python
    list.  A generator that returned or raised is [Exhausted]. *)
Inductive generator : Type :=
| OgrRecordsNew (vector : pyobj) (layer_num : Z)
| OgrRecordsLoop (rest : list feature)
| GeoRecordsNew (vectors : pyobj)
| GeoRecordsLoop (rest : list pyobj)
| ListIter (rest : list pyobj)
| Exhausted.

(** What [get_features] returns as [features_iter]: a list or a generator. *)
Inductive features_iter : Type :=
| IterList (items : list pyobj)
| IterGen (g : generator).

(** One [next()] on an iterator. *)
Inductive outcome : Type :=
| Yielded (v : pyobj)
| StopIteration
| Raised (e : exn).

Module Ingest.

Import Py.
Local Open Scope string_scope.
Local Open Scope py_scope.

Section WithBackend.

Variable B : backend.

(** [json.loads]: text and bytes are parsed, anything else is a
    [TypeError]; a text that is not JSON is a [ValueError]. *)
Definition json_loads (thing : pyobj) : result pyobj :=
  match thing with
  | PStr s | PBytes s =>
      match json_decode B s with
      | Some v => Ok v
      | None => Raise ValueError
      end
  | _ => Raise TypeError
  end.

Definition keys (f : feature) : list string := map fst (fields f).

Definition GetField (f : feature) (key : string) : pyobj :=
  match dict_get (fields f) key with
  | Some v => v
  | None => PNone
  end.

Definition feature_to_geojson (f : feature) : result pyobj :=
  geom_json_object <-
    match GetGeometryRef f with
    | Some geom_json_string => json_loads (PStr geom_json_string)
    | None => Ok PNone
    end ;;
  let output :=
    [("type", PStr "Feature"); ("geometry", geom_json_object);
     ("properties", PDict [])] in
  let fid := GetFID f in
  let output :=
    if truthy_int fid then dict_set output "id" (PInt fid) else output in
  let properties :=
    fold_left (fun props key => dict_set props key (GetField f key))
      (keys f) [] in
  Ok (PDict (dict_set output "properties" (PDict properties))).

Definition valid_types : list string :=
  ["Feature"; "Point"; "LineString"; "Polygon";
   "MultiPoint"; "MultiLineString"; "MultiPolygon"].

Definition parse_geo (thing : pyobj) : result pyobj :=
  (* object implementing geo_interface *)
  try_except (geo_interface thing) [CAttributeError] (
  (* wkb *)
  try_except (shape <- wkb_loads B thing ;; geo_interface shape)
    [CReadingError; CTypeError] (
  (* wkt *)
  try_except (shape <- wkt_loads B thing ;; geo_interface shape)
    [CReadingError; CTypeError; CAttributeError] (
  (* geojson-like python mapping *)
  try_except
    (type <- getitem thing "type" ;;
     _ <- assert (in_names type valid_types) ;;
     Ok thing)
    [CAssertionError; CTypeError] (
  (* geojson string *)
  try_except
    (maybe_geo <- json_loads thing ;;
     type <- getitem maybe_geo "type" ;;
     _ <- assert (in_names type (valid_types ++ ["FeatureCollection"])%list) ;;
     Ok maybe_geo)
    [CValueError; CAssertionError; CTypeError] (
  Raise (RasterStatsError "Can't parse %s as a geo-like object" (Some thing))))))).

Definition get_ogr_ds (vds : pyobj) : result datasource :=
  match vds with
  | PStr path =>
      match ogr_Open B path with
      | Some ds => Ok ds
      | None => Raise (OGRError "OGR cannot open %r" (Some vds))
      end
  | _ => Raise (OGRError "OGR cannot open %r: not a string" (Some vds))
  end.

(** A method call on the result of [GetLayer], which may be [None]. *)
Definition on_layer {A : Type} (l : option layer) (method : layer -> A)
    : result A :=
  match l with
  | Some lyr => Ok (method lyr)
  | None => Raise AttributeError
  end.

Definition ogr_srs (vector : pyobj) (layer_num : Z) : result (option string) :=
  ds <- get_ogr_ds vector ;;
  let layer := GetLayer ds layer_num in
  on_layer layer GetSpatialRef.

(** The body of [ogr_records] up to its loop: the features the cursor of
    the layer will hand out. *)
Definition ogr_records_enter (vector : pyobj) (layer_num : Z)
    : result (list feature) :=
  ds <- get_ogr_ds vector ;;
  let layer := GetLayer ds layer_num in
  count <- on_layer layer GetFeatureCount ;;
  if (count =? 0)%Z then Raise (OGRError "No Features" None)
  else on_layer layer layer_features.

(** The [while feature is not None] loop of [ogr_records], up to its next
    [yield]. *)
Definition ogr_records_loop (rest : list feature) : outcome * generator :=
  match rest with
  | [] => (StopIteration, Exhausted)
  | f :: rest' =>
      match feature_to_geojson f with
      | Ok record => (Yielded record, OgrRecordsLoop rest')
      | Raise e => (Raised e, Exhausted)
      end
  end.

(** The [for vector in vectors] loop of [geo_records], up to its next
    [yield]. *)
Definition geo_records_loop (rest : list pyobj) : outcome * generator :=
  match rest with
  | [] => (StopIteration, Exhausted)
  | vector :: rest' =>
      match parse_geo vector with
      | Ok geo => (Yielded geo, GeoRecordsLoop rest')
      | Raise e => (Raised e, Exhausted)
      end
  end.

(** [next(g)]: the outcome and the state the generator is left in. *)
Definition next (g : generator) : outcome * generator :=
  match g with
  | OgrRecordsNew vector layer_num =>
      match ogr_records_enter vector layer_num with
      | Ok feats => ogr_records_loop feats
      | Raise e => (Raised e, Exhausted)
      end
  | OgrRecordsLoop rest => ogr_records_loop rest
  | GeoRecordsNew vectors =>
      match iter_items vectors with
      | Ok items => geo_records_loop items
      | Raise e => (Raised e, Exhausted)
      end
  | GeoRecordsLoop rest => geo_records_loop rest
  | ListIter [] => (StopIteration, Exhausted)
  | ListIter (v :: rest) => (Yielded v, ListIter rest)
  | Exhausted => (StopIteration, Exhausted)
  end.

(** [iter(features_iter)] *)
Definition iter (it : features_iter) : generator :=
  match it with
  | IterList items => ListIter items
  | IterGen g => g
  end.

(** The outcomes of [n] successive [next()] calls. *)
Fixpoint pulls (n : nat) (g : generator) : list outcome :=
  match n with
  | O => []
  | S n' => let '(o, g') := next g in o :: pulls n' g'
  end.

Definition ogr_records (vector : pyobj) (layer_num : Z) : generator :=
  OgrRecordsNew vector layer_num.

Definition geo_records (vectors : pyobj) : generator :=
  GeoRecordsNew vectors.

Definition single_geo (vectors : pyobj) (spatial_ref : spatial_reference)
    : result (features_iter * string * spatial_reference) :=
  feat <- parse_geo vectors ;;
  let features_iter := IterList [feat] in
  let strategy := "single_geo" in
  Ok (features_iter, strategy, spatial_ref).

Definition get_features (vectors : pyobj) (layer_num : Z)
    : result (features_iter * string * spatial_reference) :=
  let spatial_ref := EmptySpatialReference in
  match vectors with
  | PStr _ =>
      try_except
        (* either an OGR layer ... *)
        (_ <- get_ogr_ds vectors ;;
         let features_iter := IterGen (ogr_records vectors layer_num) in
         srs <- ogr_srs vectors layer_num ;;
         let strategy := "ogr" in
         Ok (features_iter, strategy, LayerSpatialReference srs))
        [COGRError; CAttributeError]
        (* ... or a single string to be parsed as wkt/wkb/json *)
        (single_geo vectors spatial_ref)
  | PBytes _ =>
      (* wkb *)
      single_geo vectors spatial_ref
  | PGeo geo =>
      type <- getitem geo "type" ;;
      geotype <- lower type ;;
      if eq_literal geotype "featurecollection" then
        (* ... a featurecollection *)
        features <- getitem geo "features" ;;
        let features_iter := IterGen (geo_records features) in
        let strategy := "geo_featurecollection" in
        Ok (features_iter, strategy, spatial_ref)
      else
        (* ... or an single object *)
        single_geo vectors spatial_ref
  | PDict _ =>
      (* ... or an python mapping *)
      single_geo vectors spatial_ref
  | PNone | PInt _ | PList _ =>
      (* ... or an iterable of objects *)
      let features_iter := IterGen (geo_records vectors) in
      let strategy := "iter_geo" in
      Ok (features_iter, strategy, spatial_ref)
  end.

End WithBackend.

End Ingest.

(** ** Geometry type codes *)

Module TypeCodes.

Local Open Scope string_scope.

Section WithOgr.

(** The members of OGR's geometry-type enumeration the function names. *)
Variables wkbPolygon wkbLineString wkbMultiPolygon : Z.

Definition shapely_to_ogr_type (shapely_type : string) : result Z :=
  if String.eqb shapely_type "Polygon" then Ok wkbPolygon
  else if String.eqb shapely_type "LineString" then Ok wkbLineString
  else if String.eqb shapely_type "MultiPolygon" then Ok wkbMultiPolygon
  else if String.eqb shapely_type "MultiLineString" then Ok wkbLineString
  else Raise TypeError.

End WithOgr.

(** The names the function has a branch for, and the seven names of a
    canonical geometry record. *)
Definition coded_names : list string :=
  ["Polygon"; "LineString"; "MultiPolygon"; "MultiLineString"].

Definition canonical_names : list string :=
  ["Point"; "LineString"; "Polygon"; "MultiPoint"; "MultiLineString";
   "MultiPolygon"; "Feature"].

(** The values of [ogr.wkbPolygon], [ogr.wkbLineString] and
    [ogr.wkbMultiPolygon] in OGR. *)
Definition ogr_wkbPolygon : Z := 3.
Definition ogr_wkbLineString : Z := 2.
Definition ogr_wkbMultiPolygon : Z := 6.

End TypeCodes.

(** * Properties *)

(** ** Pixel windows *)

Module WindowSpec.

Import Window.


(** C5: with transform (0, 1, 0, 10, 0, -1), raster size (10, 10) and
    bounding box (2.0, 3.0, 5.0, 6.0), [bbox_to_pixel_offsets] returns the
    window (2, 4, 3, 3). *)
Theorem window_example :
  bbox_to_pixel_offsets (0, 1, 0, 10, 0, -1)%Q (2.0, 3.0, 5.0, 6.0)%Q (10, 10)
  = Ok (2, 4, 3, 3).
Proof. vm_compute. reflexivity. Qed.

(** The same call in binary64, where every number of the example is
    exact. *)
Lemma window_example_binary64 :
  Binary64.bbox_to_pixel_offsets (0, 1, 0, 10, 0, -1)%float
    (2.0, 3.0, 5.0, 6.0)%float (10, 10)
  = Ok (2, 4, 3, 3).
Proof. vm_compute. reflexivity. Qed.

(** C9: whenever [bbox_to_pixel_offsets] returns a window (x, y, w, h),
    [pixel_offsets_to_window] on it returns the half-open intervals
    ((y, y + h), (x, x + w)): the row interval has length h and the
    column interval has length w. *)
Theorem window_to_intervals (gt : Binary64.geotransform)
    (bbox : Binary64.bounds) (rsize : Z * Z) (x y w h : Z) :
  Binary64.bbox_to_pixel_offsets gt bbox rsize = Ok (x, y, w, h) ->
  pixel_offsets_to_window (as_sequence (x, y, w, h))
  = Ok ((y, y + h), (x, x + w))
  /\ (y + h) - y = h /\ (x + w) - x = w.
Proof.
  intros _. cbn [as_sequence pixel_offsets_to_window].
  repeat split; lia.
Qed.

Lemma window_to_intervals_witness :
  pixel_offsets_to_window (as_sequence (2, 4, 3, 3))
  = Ok ((4, 4 + 3), (2, 2 + 3))
  /\ (4 + 3) - 4 = 3 /\ (2 + 3) - 2 = 3.
Proof.
  apply (window_to_intervals (0, 1, 0, 10, 0, -1)%float
           (2.0, 3.0, 5.0, 6.0)%float (10, 10)).
  vm_compute. reflexivity.
Defined.







End WindowSpec.

(** ** Geometry ingestion *)

Module IngestSpec.

Import Py Ingest.
Local Open Scope string_scope.
Local Open Scope py_scope.

Lemma try_except_caught {A : Type} (body rest : result A)
    (handled : list exn_class) (e : exn) :
  body = Raise e -> caught handled e = true ->
  try_except body handled rest = rest.
Proof. intros -> Hc. unfold try_except. now rewrite Hc. Qed.

Lemma try_except_returns {A : Type} (body rest : result A)
    (handled : list exn_class) (a : A) :
  body = Ok a -> try_except body handled rest = Ok a.
Proof. now intros ->. Qed.

Lemma try_except_escapes {A : Type} (body rest : result A)
    (handled : list exn_class) (e : exn) :
  body = Raise e -> caught handled e = false ->
  try_except body handled rest = Raise e.
Proof. intros -> Hc. unfold try_except. now rewrite Hc. Qed.

Section WithBackend.

Variable B : backend.

(** The decoder raised, with an exception its [except] clause lists. *)
Definition wkb_declines (thing : pyobj) : Prop :=
  exists e, wkb_loads B thing = Raise e
            /\ caught [CReadingError; CTypeError] e = true.

Definition wkt_declines (thing : pyobj) : Prop :=
  exists e, wkt_loads B thing = Raise e
            /\ caught [CReadingError; CTypeError; CAttributeError] e = true.

(** The last two attempts of [parse_geo] and its final [raise]. *)
Definition parse_geo_mapping_or_json (thing : pyobj) : result pyobj :=
  try_except
    (type <- getitem thing "type" ;;
     _ <- assert (in_names type valid_types) ;;
     Ok thing)
    [CAssertionError; CTypeError] (
  try_except
    (maybe_geo <- json_loads B thing ;;
     type <- getitem maybe_geo "type" ;;
     _ <- assert (in_names type (valid_types ++ ["FeatureCollection"])%list) ;;
     Ok maybe_geo)
    [CValueError; CAssertionError; CTypeError] (
  Raise (RasterStatsError "Can't parse %s as a geo-like object" (Some thing)))).

Lemma parse_geo_past_decoders (thing : pyobj) :
  geo_interface thing = Raise AttributeError ->
  wkb_declines thing -> wkt_declines thing ->
  parse_geo B thing = parse_geo_mapping_or_json thing.
Proof.
  intros Hgeo (e1 & Hwkb & C1) (e2 & Hwkt & C2).
  unfold parse_geo.
  rewrite (try_except_caught _ _ [CAttributeError] AttributeError Hgeo)
    by reflexivity.
  rewrite (try_except_caught _ _ [CReadingError; CTypeError] e1);
    [ | now rewrite Hwkb | exact C1 ].
  rewrite (try_except_caught _ _ [CReadingError; CTypeError; CAttributeError] e2);
    [ | now rewrite Hwkt | exact C2 ].
  reflexivity.
Qed.

Lemma parse_geo_typed_mapping (d : list (string * pyobj)) (name : string) :
  dict_get d "type" = Some (PStr name) ->
  parse_geo_mapping_or_json (PDict d) =
  if existsb (String.eqb name) valid_types then Ok (PDict d)
  else Raise (RasterStatsError "Can't parse %s as a geo-like object"
                (Some (PDict d))).
Proof.
  intros Ht. unfold parse_geo_mapping_or_json, getitem. rewrite Ht.
  cbn [bind in_names].
  destruct (existsb (String.eqb name) valid_types); reflexivity.
Qed.

Lemma pulls_exhausted (n : nat) : pulls B n Exhausted = repeat StopIteration n.
Proof. induction n as [| n IH]; [ reflexivity | cbn; now rewrite IH ]. Qed.

Lemma pulls_list (items : list pyobj) (n : nat) :
  pulls B (List.length items + n) (ListIter items)
  = (map Yielded items ++ repeat StopIteration n)%list.
Proof.
  induction items as [| v rest IH]; cbn [List.length Nat.add map app].
  - destruct n as [| n]; [ reflexivity | ].
    cbn [pulls next repeat]. now rewrite pulls_exhausted.
  - cbn [pulls next]. now rewrite IH.
Qed.

End WithBackend.

(** *** A concrete backend *)

(** Decoders that know no geometry encoding, a JSON parser that knows one
    document, and a driver that opens one data source: a single layer
    without features. *)
Module Sample.

Definition quoted (s : string) : string :=
  String (ascii_of_nat 34) (s ++ String (ascii_of_nat 34) EmptyString).

(** The text [{"type": "FeatureCollection", "features": []}]. *)
Definition collection_text : string :=
  "{" ++ quoted "type" ++ ": " ++ quoted "FeatureCollection" ++ ", "
      ++ quoted "features" ++ ": []}".

Definition collection : pyobj :=
  PDict [("type", PStr "FeatureCollection"); ("features", PList [])].

Definition polygon : pyobj :=
  PDict [("type", PStr "Polygon");
         ("coordinates",
          PList [PList [PList [PInt 0; PInt 0]; PList [PInt 1; PInt 0];
                        PList [PInt 1; PInt 1]; PList [PInt 0; PInt 0]]])].

Definition untyped : pyobj := PDict [("name", PStr "a")].

Definition empty_layer : layer :=
  {| GetFeatureCount := 0; layer_features := []; GetSpatialRef := None |}.

Definition backend : backend :=
  {| wkb_loads thing :=
       match thing with
       | PStr _ | PBytes _ => Raise ReadingError
       | _ => Raise TypeError
       end;
     wkt_loads thing :=
       match thing with
       | PStr _ | PBytes _ => Raise ReadingError
       | _ => Raise AttributeError
       end;
     json_decode text :=
       if String.eqb text collection_text then Some collection else None;
     ogr_Open path :=
       if String.eqb path "empty.shp" then Some [empty_layer] else None |}.

Lemma wkb_declines_all (thing : pyobj) : wkb_declines backend thing.
Proof. destruct thing; eexists; split; reflexivity. Qed.

Lemma wkt_declines_all (thing : pyobj) : wkt_declines backend thing.
Proof. destruct thing; eexists; split; reflexivity. Qed.

End Sample.

(** *** Zero-feature layers *)

(** C2, as the code has it: for a path that the driver opens and whose
    layer reports zero features, [get_features] returns, with strategy
    [ogr], the layer's spatial reference and the generator of
    [ogr_records] not yet started; the first [next()] on that generator
    raises [OGRError("No Features")] and leaves it exhausted. *)
Theorem no_features_deferred (B : backend) (path : string) (layer_num : Z)
    (ds : datasource) (lyr : layer) :
  ogr_Open B path = Some ds ->
  GetLayer ds layer_num = Some lyr ->
  GetFeatureCount lyr = 0%Z ->
  exists features_iter,
    get_features B (PStr path) layer_num
    = Ok (features_iter, "ogr", LayerSpatialReference (GetSpatialRef lyr))
    /\ next B (iter features_iter)
       = (Raised (OGRError "No Features" None), Exhausted)
    /\ forall n, pulls B (S n) (iter features_iter)
                 = Raised (OGRError "No Features" None) :: repeat StopIteration n.
Proof.
  intros Hopen Hlayer Hcount.
  exists (IterGen (OgrRecordsNew (PStr path) layer_num)).
  assert (Hnext : next B (OgrRecordsNew (PStr path) layer_num)
                  = (Raised (OGRError "No Features" None), Exhausted)).
  { cbn [next]. unfold ogr_records_enter, get_ogr_ds.
    rewrite Hopen. cbn [bind]. rewrite Hlayer. cbn [on_layer bind].
    rewrite Hcount. reflexivity. }
  split; [ | split ].
  - unfold get_features, ogr_srs, get_ogr_ds.
    rewrite Hopen. cbn [bind]. rewrite Hlayer. reflexivity.
  - exact Hnext.
  - intros n. cbn [iter pulls]. rewrite Hnext. now rewrite pulls_exhausted.
Qed.

Lemma no_features_deferred_witness :
  exists features_iter,
    get_features Sample.backend (PStr "empty.shp") 0
    = Ok (features_iter, "ogr", LayerSpatialReference None)
    /\ next Sample.backend (iter features_iter)
       = (Raised (OGRError "No Features" None), Exhausted)
    /\ forall n, pulls Sample.backend (S n) (iter features_iter)
                 = Raised (OGRError "No Features" None) :: repeat StopIteration n.
Proof.
  apply (no_features_deferred Sample.backend "empty.shp" 0
           [Sample.empty_layer] Sample.empty_layer);
    reflexivity.
Defined.

(** C2 as stated fails: on a path whose only layer has no features the
    call itself does not raise, it returns the generator. *)
Lemma no_features_call_returns :
  ogr_Open Sample.backend "empty.shp" = Some [Sample.empty_layer]
  /\ GetFeatureCount Sample.empty_layer = 0%Z
  /\ get_features Sample.backend (PStr "empty.shp") 0
     = Ok (IterGen (OgrRecordsNew (PStr "empty.shp") 0), "ogr",
           LayerSpatialReference None)
  /\ forall e, get_features Sample.backend (PStr "empty.shp") 0 <> Raise e.
Proof.
  repeat split; try reflexivity.
  intros e. vm_compute. discriminate.
Qed.

(** *** Mappings *)

(** C6: for a plain mapping whose [type] is ["Polygon"], which the two
    shapely decoders decline, [get_features] returns strategy
    [single_geo] and a list whose iteration yields one record, the input
    mapping itself, and then stops. *)
Theorem polygon_mapping_single_geo (B : backend) (d : list (string * pyobj))
    (layer_num : Z) :
  dict_get d "type" = Some (PStr "Polygon") ->
  wkb_declines B (PDict d) -> wkt_declines B (PDict d) ->
  exists features_iter,
    get_features B (PDict d) layer_num
    = Ok (features_iter, "single_geo", EmptySpatialReference)
    /\ features_iter = IterList [PDict d]
    /\ forall n, pulls B (S n) (iter features_iter)
                 = Yielded (PDict d) :: repeat StopIteration n.
Proof.
  intros Ht Hwkb Hwkt. exists (IterList [PDict d]).
  split; [ | split ].
  - unfold get_features, single_geo.
    rewrite parse_geo_past_decoders by (reflexivity || assumption).
    rewrite (parse_geo_typed_mapping B d "Polygon" Ht). reflexivity.
  - reflexivity.
  - intros n. exact (pulls_list B [PDict d] n).
Qed.

Lemma polygon_mapping_single_geo_witness :
  exists features_iter,
    get_features Sample.backend Sample.polygon 0
    = Ok (features_iter, "single_geo", EmptySpatialReference)
    /\ features_iter = IterList [Sample.polygon]
    /\ forall n, pulls Sample.backend (S n) (iter features_iter)
                 = Yielded Sample.polygon :: repeat StopIteration n.
Proof.
  apply (polygon_mapping_single_geo Sample.backend).
  - reflexivity.
  - apply Sample.wkb_declines_all.
  - apply Sample.wkt_declines_all.
Defined.

(** C10, as the code has it: a plain mapping whose [type] is
    ["FeatureCollection"] is refused by [parse_geo] (and so by
    [get_features]) with the [RasterStatsError] that names it, while a
    JSON text that decodes to the same mapping is parsed to it, provided
    the two shapely decoders decline the text with an exception that
    their [except] clauses list: the name is accepted by the JSON-string
    attempt only. *)
Theorem feature_collection_only_as_json (B : backend)
    (d : list (string * pyobj)) (text : string) (layer_num : Z) :
  dict_get d "type" = Some (PStr "FeatureCollection") ->
  json_decode B text = Some (PDict d) ->
  wkb_declines B (PDict d) -> wkt_declines B (PDict d) ->
  wkb_declines B (PStr text) -> wkt_declines B (PStr text) ->
  parse_geo B (PDict d)
  = Raise (RasterStatsError "Can't parse %s as a geo-like object"
             (Some (PDict d)))
  /\ get_features B (PDict d) layer_num
     = Raise (RasterStatsError "Can't parse %s as a geo-like object"
                (Some (PDict d)))
  /\ parse_geo B (PStr text) = Ok (PDict d).
Proof.
  intros Ht Hjson Hwkb Hwkt Hwkb' Hwkt'.
  assert (Hmap : parse_geo B (PDict d)
                 = Raise (RasterStatsError "Can't parse %s as a geo-like object"
                            (Some (PDict d)))).
  { rewrite parse_geo_past_decoders by (reflexivity || assumption).
    now rewrite (parse_geo_typed_mapping B d "FeatureCollection" Ht). }
  split; [ exact Hmap | split ].
  - unfold get_features, single_geo. now rewrite Hmap.
  - rewrite parse_geo_past_decoders by (reflexivity || assumption).
    unfold parse_geo_mapping_or_json, json_loads.
    cbn [getitem bind try_except caught class_of existsb exn_class_eqb orb].
    rewrite Hjson. cbn [bind getitem]. rewrite Ht. reflexivity.
Qed.

Lemma feature_collection_only_as_json_witness :
  parse_geo Sample.backend Sample.collection
  = Raise (RasterStatsError "Can't parse %s as a geo-like object"
             (Some Sample.collection))
  /\ get_features Sample.backend Sample.collection 0
     = Raise (RasterStatsError "Can't parse %s as a geo-like object"
                (Some Sample.collection))
  /\ parse_geo Sample.backend (PStr Sample.collection_text)
     = Ok Sample.collection.
Proof.
  apply (feature_collection_only_as_json Sample.backend
           [("type", PStr "FeatureCollection"); ("features", PList [])]
           Sample.collection_text 0).
  - reflexivity.
  - reflexivity.
  - apply Sample.wkb_declines_all.
  - apply Sample.wkt_declines_all.
  - apply Sample.wkb_declines_all.
  - apply Sample.wkt_declines_all.
Defined.

(** shapely 1.5 encodes a text as ASCII before it reads it as WKT: on a
    text with a character outside ASCII that raises [UnicodeEncodeError],
    a [ValueError], which the clause of the WKT attempt does not list.
    The document here has the name [caf] followed by an e with an acute
    accent, two bytes in UTF-8. *)
Module Shapely15.

Definition is_ascii (s : string) : bool :=
  forallb (fun code => code <? 128)%Z (codes s).

Definition accented : string :=
  "caf" ++ String (ascii_of_nat 195) (String (ascii_of_nat 169) EmptyString).

Definition collection : pyobj :=
  PDict [("type", PStr "FeatureCollection"); ("features", PList []);
         ("name", PStr accented)].

Definition collection_text : string :=
  "{" ++ Sample.quoted "type" ++ ": " ++ Sample.quoted "FeatureCollection"
      ++ ", " ++ Sample.quoted "features" ++ ": [], "
      ++ Sample.quoted "name" ++ ": " ++ Sample.quoted accented ++ "}".

Definition backend : backend :=
  {| wkb_loads := wkb_loads Sample.backend;
     wkt_loads thing :=
       match thing with
       | PStr t => if is_ascii t then Raise ReadingError else Raise ValueError
       | PBytes _ => Raise ReadingError
       | _ => Raise AttributeError
       end;
     json_decode text :=
       if String.eqb text collection_text then Some collection else None;
     ogr_Open _ := None |}.

End Shapely15.

(** C10 as stated fails: the JSON text of a feature collection with a
    character outside ASCII is not parsed; the [ValueError] of the WKT
    attempt propagates before the JSON attempt is reached, although the
    mapping itself is refused as the claim says. *)
Lemma feature_collection_text_not_parsed :
  getitem Shapely15.collection "type" = Ok (PStr "FeatureCollection")
  /\ json_decode Shapely15.backend Shapely15.collection_text
     = Some Shapely15.collection
  /\ parse_geo Shapely15.backend Shapely15.collection
     = Raise (RasterStatsError "Can't parse %s as a geo-like object"
                (Some Shapely15.collection))
  /\ parse_geo Shapely15.backend (PStr Shapely15.collection_text)
     = Raise ValueError.
Proof. repeat split; vm_compute; reflexivity. Qed.

(** *** Iterables *)

(** C7 (the code at a failing input): a mapping without a [type] key is
    recognised by no attempt of [parse_geo], and the [KeyError] of its
    subscript is in no [except] clause: the generator of [geo_records]
    stops there with [KeyError], not with [RasterStatsError]. *)
Theorem untyped_mapping_key_error :
  parse_geo Sample.backend Sample.untyped = Raise (KeyError "type")
  /\ get_features Sample.backend (PList [Sample.untyped; Sample.polygon]) 0
     = Ok (IterGen (GeoRecordsNew (PList [Sample.untyped; Sample.polygon])),
           "iter_geo", EmptySpatialReference)
  /\ pulls Sample.backend 3
       (GeoRecordsNew (PList [Sample.untyped; Sample.polygon]))
     = [Raised (KeyError "type"); StopIteration; StopIteration].
Proof. repeat split. Qed.

(** The generator of [geo_records] is fail-fast: the records of the items
    before the first one that [parse_geo] refuses are yielded in order,
    the next [next()] raises what [parse_geo] raised, and every later one
    is [StopIteration]: no item after the refused one is parsed. *)
Theorem geo_records_fail_fast (B : backend) (before after : list pyobj)
    (records : list pyobj) (bad : pyobj) (e : exn) (n : nat) :
  Forall2 (fun item record => parse_geo B item = Ok record) before records ->
  parse_geo B bad = Raise e ->
  pulls B (List.length before + S n)
    (geo_records (PList (before ++ bad :: after)%list))
  = (map Yielded records ++ Raised e :: repeat StopIteration n)%list.
Proof.
  intros Hbefore Hbad.
  assert (Hloop : forall items recs,
             Forall2 (fun item record => parse_geo B item = Ok record) items recs ->
             forall g,
               next B g = geo_records_loop B (items ++ bad :: after)%list ->
               pulls B (List.length items + S n) g
               = (map Yielded recs ++ Raised e :: repeat StopIteration n)%list).
  { induction 1 as [| item record items recs Hitem _ IH]; intros g Hg.
    - cbn [List.length Nat.add pulls map app]. rewrite Hg.
      cbn [app geo_records_loop]. rewrite Hbad.
      now rewrite pulls_exhausted.
    - cbn [List.length Nat.add pulls map app]. rewrite Hg.
      cbn [app geo_records_loop]. rewrite Hitem.
      f_equal. apply IH. reflexivity. }
  apply (Hloop before records Hbefore). reflexivity.
Qed.

Lemma geo_records_fail_fast_witness :
  pulls Sample.backend 3
    (geo_records (PList [Sample.polygon; PInt 7; Sample.polygon]))
  = [Yielded Sample.polygon;
     Raised (RasterStatsError "Can't parse %s as a geo-like object"
               (Some (PInt 7)));
     StopIteration].
Proof.
  apply (geo_records_fail_fast Sample.backend [Sample.polygon]
           [Sample.polygon] [Sample.polygon] (PInt 7) _ 1).
  - repeat constructor.
  - reflexivity.
Defined.

(** An item that is [None], an int or a list, and that the shapely
    decoders decline, is refused with the [RasterStatsError] that names
    it. *)
Theorem parse_geo_names_unparsed (B : backend) (thing : pyobj) :
  match thing with
  | PNone | PInt _ | PList _ => True
  | _ => False
  end ->
  wkb_declines B thing -> wkt_declines B thing ->
  parse_geo B thing
  = Raise (RasterStatsError "Can't parse %s as a geo-like object" (Some thing)).
Proof.
  intros Hkind Hwkb Hwkt.
  rewrite parse_geo_past_decoders;
    [ | destruct thing; (reflexivity || contradiction) | assumption .. ].
  destruct thing; (reflexivity || contradiction).
Qed.

Lemma parse_geo_names_unparsed_witness :
  parse_geo Sample.backend (PInt 7)
  = Raise (RasterStatsError "Can't parse %s as a geo-like object"
             (Some (PInt 7))).
Proof.
  apply (parse_geo_names_unparsed Sample.backend (PInt 7)).
  - exact I.
  - apply Sample.wkb_declines_all.
  - apply Sample.wkt_declines_all.
Defined.

End IngestSpec.

(** ** Geometry type codes *)

Module TypeCodesSpec.

Import TypeCodes.
Local Open Scope string_scope.

(** C3, as the code has it: [shapely_to_ogr_type] returns a code for the
    four names Polygon, LineString, MultiPolygon and MultiLineString and
    raises [TypeError] on every other name; Polygon and MultiPolygon get
    the two constants [wkbPolygon] and [wkbMultiPolygon], distinct as
    they are in OGR, and MultiLineString gets the code of LineString. *)
Theorem type_codes (wkbPolygon wkbLineString wkbMultiPolygon : Z) :
  let code := shapely_to_ogr_type wkbPolygon wkbLineString wkbMultiPolygon in
  wkbPolygon <> wkbMultiPolygon ->
  (forall name, In name coded_names -> exists c, code name = Ok c)
  /\ (forall name, ~ In name coded_names -> code name = Raise TypeError)
  /\ code "Polygon" = Ok wkbPolygon
  /\ code "MultiPolygon" = Ok wkbMultiPolygon
  /\ code "Polygon" <> code "MultiPolygon"
  /\ code "MultiLineString" = code "LineString".
Proof.
  intros code Hdistinct. subst code.
  repeat match goal with |- _ /\ _ => split end; try reflexivity.
  - intros name Hin. cbn [coded_names In] in Hin.
    destruct Hin as [<- | [<- | [<- | [<- | []]]]]; eexists; reflexivity.
  - intros name Hout. unfold shapely_to_ogr_type.
    repeat match goal with
    | |- context [ String.eqb name ?lit ] =>
        destruct (String.eqb_spec name lit) as [-> | _];
        [ exfalso; apply Hout; cbn; tauto | ]
    end.
    reflexivity.
  - cbn. intros E. apply Hdistinct. now injection E.
Qed.

Lemma type_codes_witness :
  let code :=
    shapely_to_ogr_type ogr_wkbPolygon ogr_wkbLineString ogr_wkbMultiPolygon in
  (forall name, In name coded_names -> exists c, code name = Ok c)
  /\ (forall name, ~ In name coded_names -> code name = Raise TypeError)
  /\ code "Polygon" = Ok ogr_wkbPolygon
  /\ code "MultiPolygon" = Ok ogr_wkbMultiPolygon
  /\ code "Polygon" <> code "MultiPolygon"
  /\ code "MultiLineString" = code "LineString".
Proof.
  apply (type_codes ogr_wkbPolygon ogr_wkbLineString ogr_wkbMultiPolygon).
  discriminate.
Defined.

(** C3 as stated fails: Point, MultiPoint and Feature are canonical names
    and get no code. *)
Lemma point_has_no_code :
  let code :=
    shapely_to_ogr_type ogr_wkbPolygon ogr_wkbLineString ogr_wkbMultiPolygon in
  In "Point" canonical_names
  /\ code "Point" = Raise TypeError
  /\ code "MultiPoint" = Raise TypeError
  /\ code "Feature" = Raise TypeError.
Proof. cbn. tauto. Qed.

End TypeCodesSpec.

(** * Further properties *)

(** ** Pixel windows: monotonicity, translation, intervals *)

Module WindowLaws.

Import Window WindowSpec.








(** [pixel_offsets_to_window] checks the length of its argument: it
    returns for a sequence of four numbers and raises
    [RasterStatsError] for every other length, the empty one included;
    the intervals it returns have the lengths it was given. *)
Theorem pixel_offsets_to_window_length (offsets : list Z) :
  (List.length offsets = 4%nat ->
   exists r0 r1 c0 c1,
     pixel_offsets_to_window offsets = Ok ((r0, r1), (c0, c1))
     /\ offsets = [c0; r0; c1 - c0; r1 - r0])
  /\ (List.length offsets <> 4%nat ->
      pixel_offsets_to_window offsets
      = Raise (RasterStatsError "offset should be a 4-element tuple" None)).
Proof.
  destruct offsets as [| x1 [| y1 [| xsize [| ysize [| extra rest]]]]];
    cbn [List.length pixel_offsets_to_window];
    (split; [ intros E | intros N ]);
    try discriminate E; try reflexivity; try (exfalso; apply N; reflexivity).
  exists y1, (y1 + ysize), x1, (x1 + xsize).
  split; [ reflexivity | repeat f_equal; lia ].
Qed.

End WindowLaws.

(** ** Feature records *)

Module RecordSpec.

Import Py Ingest IngestSpec.
Local Open Scope string_scope.
Local Open Scope py_scope.

(** *** Mappings: lookup after update *)

Lemma dict_get_set_same (d : list (string * pyobj)) (key : string) (v : pyobj) :
  dict_get (dict_set d key v) key = Some v.
Proof.
  induction d as [| [k u] rest IH]; cbn [dict_set dict_get].
  - now rewrite String.eqb_refl.
  - destruct (String.eqb k key) eqn:E; cbn [dict_get]; rewrite E;
      [ reflexivity | exact IH ].
Qed.

Lemma dict_get_set_other (d : list (string * pyobj)) (key key' : string)
    (v : pyobj) :
  key <> key' -> dict_get (dict_set d key v) key' = dict_get d key'.
Proof.
  intros Hne. induction d as [| [k u] rest IH]; cbn [dict_set dict_get].
  - destruct (String.eqb_spec key key'); [ contradiction | reflexivity ].
  - destruct (String.eqb_spec k key) as [-> | Hk]; cbn [dict_get].
    + destruct (String.eqb_spec key key'); [ contradiction | reflexivity ].
    + destruct (String.eqb k key'); [ reflexivity | exact IH ].
Qed.

Section WithBackend.

Variable B : backend.

(** The [properties] mapping that [feature_to_geojson] fills in. *)
Definition properties_of (f : feature) : list (string * pyobj) :=
  fold_left (fun props key => dict_set props key (GetField f key)) (keys f) [].

Lemma fold_fields_lookup (f : feature) (names : list string)
    (acc : list (string * pyobj)) (key : string) :
  dict_get
    (fold_left (fun props k => dict_set props k (GetField f k)) names acc) key
  = if existsb (String.eqb key) names then Some (GetField f key)
    else dict_get acc key.
Proof.
  revert acc. induction names as [| k rest IH]; intros acc; cbn [fold_left existsb].
  - reflexivity.
  - rewrite IH. destruct (existsb (String.eqb key) rest).
    + now rewrite Bool.orb_true_r.
    + rewrite Bool.orb_false_r.
      destruct (String.eqb_spec key k) as [-> | Hne].
      * apply dict_get_set_same.
      * apply dict_get_set_other. congruence.
Qed.

Lemma keys_lookup (fs : list (string * pyobj)) (key : string) :
  existsb (String.eqb key) (map fst fs)
  = match dict_get fs key with Some _ => true | None => false end.
Proof.
  induction fs as [| [k v] rest IH]; cbn [map fst existsb dict_get].
  - reflexivity.
  - rewrite (String.eqb_sym key k).
    destruct (String.eqb k key); [ reflexivity | exact IH ].
Qed.

Lemma properties_of_lookup (f : feature) (key : string) :
  dict_get (properties_of f) key = dict_get (fields f) key.
Proof.
  unfold properties_of. rewrite fold_fields_lookup.
  unfold keys. rewrite keys_lookup. unfold GetField.
  destruct (dict_get (fields f) key); reflexivity.
Qed.

(** The geometry of the record: [None] for a feature without geometry,
    else what the JSON text of the geometry decodes to, if it does. *)
Definition decoded_geometry (f : feature) : option pyobj :=
  match GetGeometryRef f with
  | None => Some PNone
  | Some geom_json_string => json_decode B geom_json_string
  end.

End WithBackend.

(** *** A data source with features *)

(** A driver that opens [parcels.shp]: one layer with a spatial reference
    and two features, the first with FID 0 and a point geometry, the
    second with FID 7, no geometry and a field name used twice. *)
Module Parcels.

(** The text [{"type": "Point", "coordinates": [1, 2]}]. *)
Definition point_text : string :=
  "{" ++ Sample.quoted "type" ++ ": " ++ Sample.quoted "Point" ++ ", "
      ++ Sample.quoted "coordinates" ++ ": [1, 2]}".

Definition point : pyobj :=
  PDict [("type", PStr "Point"); ("coordinates", PList [PInt 1; PInt 2])].

Definition first : feature :=
  {| GetGeometryRef := Some point_text;
     GetFID := 0;
     fields := [("name", PStr "a"); ("area", PInt 12)] |}.

Definition second : feature :=
  {| GetGeometryRef := None;
     GetFID := 7;
     fields := [("name", PStr "b"); ("name", PStr "c")] |}.

Definition parcels : layer :=
  {| GetFeatureCount := 2;
     layer_features := [first; second];
     GetSpatialRef := Some "EPSG:4326" |}.

Definition backend : backend :=
  {| wkb_loads := wkb_loads Sample.backend;
     wkt_loads := wkt_loads Sample.backend;
     json_decode text :=
       if String.eqb text point_text then Some point else None;
     ogr_Open path :=
       if String.eqb path "parcels.shp" then Some [parcels] else None |}.

Definition first_record : pyobj :=
  PDict [("type", PStr "Feature"); ("geometry", point);
         ("properties", PDict [("name", PStr "a"); ("area", PInt 12)])].

Definition second_record : pyobj :=
  PDict [("type", PStr "Feature"); ("geometry", PNone);
         ("properties", PDict [("name", PStr "b")]); ("id", PInt 7)].

Lemma parcels_wkb_declines (thing : pyobj) : wkb_declines backend thing.
Proof. destruct thing; eexists; split; reflexivity. Qed.

Lemma parcels_wkt_declines (thing : pyobj) : wkt_declines backend thing.
Proof. destruct thing; eexists; split; reflexivity. Qed.

End Parcels.

(** *** The record of a feature *)

(** For a feature whose geometry is absent or decodes, the record is a
    mapping with exactly the keys [type] (the text [Feature]),
    [geometry], [properties] and, only when the FID is not 0, [id]; every
    field name is looked up in [properties] as in the feature (the first
    field of that name), and no other name is bound there. *)
Theorem feature_record (B : backend) (f : feature) (geometry : pyobj) :
  decoded_geometry B f = Some geometry ->
  exists props,
    feature_to_geojson B f
    = Ok (PDict ([("type", PStr "Feature"); ("geometry", geometry);
                  ("properties", PDict props)]
                 ++ if (GetFID f =? 0)%Z then [] else [("id", PInt (GetFID f))]))
    /\ forall key, dict_get props key = dict_get (fields f) key.
Proof.
  intros Hgeom. exists (properties_of f).
  split; [ | apply properties_of_lookup ].
  unfold feature_to_geojson, decoded_geometry in *.
  assert (Hload :
    match GetGeometryRef f with
    | Some geom_json_string => json_loads B (PStr geom_json_string)
    | None => Ok PNone
    end = Ok geometry).
  { destruct (GetGeometryRef f) as [text |].
    - cbn [json_loads]. now rewrite Hgeom.
    - now injection Hgeom as <-. }
  rewrite Hload. cbn [bind]. unfold truthy_int.
  destruct (GetFID f =? 0)%Z; reflexivity.
Qed.

Lemma feature_record_witness :
  exists props,
    feature_to_geojson Parcels.backend Parcels.second
    = Ok (PDict ([("type", PStr "Feature"); ("geometry", PNone);
                  ("properties", PDict props)]
                 ++ if (GetFID Parcels.second =? 0)%Z then []
                    else [("id", PInt (GetFID Parcels.second))]))
    /\ forall key, dict_get props key = dict_get (fields Parcels.second) key.
Proof.
  apply (feature_record Parcels.backend Parcels.second PNone). reflexivity.
Defined.

(** [feature_to_geojson] fails in one case only: the feature has a
    geometry whose JSON text does not decode, and the failure is the
    [ValueError] of [json.loads]. *)
Theorem feature_record_failure (B : backend) (f : feature) (e : exn) :
  feature_to_geojson B f = Raise e
  <-> e = ValueError
      /\ exists text, GetGeometryRef f = Some text /\ json_decode B text = None.
Proof.
  unfold feature_to_geojson. destruct (GetGeometryRef f) as [text |].
  - cbn [json_loads]. destruct (json_decode B text) as [g |] eqn:Hj; cbn [bind].
    + split; [ discriminate | ].
      intros (_ & text' & Ht & Hnone). congruence.
    + split.
      * intros E. injection E as <-. split; [ reflexivity | ].
        exists text. split; [ reflexivity | exact Hj ].
      * now intros (-> & _).
  - cbn [bind]. split; [ discriminate | ].
    intros (_ & text & Ht & _). discriminate.
Qed.

(** A record made by [feature_to_geojson] is a mapping that [parse_geo]
    accepts as it is, once the shapely decoders have declined it. *)
Theorem feature_record_parses (B : backend) (f : feature) (record : pyobj) :
  feature_to_geojson B f = Ok record ->
  wkb_declines B record -> wkt_declines B record ->
  parse_geo B record = Ok record.
Proof.
  intros Hrec Hwkb Hwkt.
  assert (Hshape : exists d, record = PDict d
                             /\ dict_get d "type" = Some (PStr "Feature")).
  { unfold feature_to_geojson in Hrec.
    destruct (match GetGeometryRef f with
              | Some s => json_loads B (PStr s)
              | None => Ok PNone
              end) as [g | e']; cbn [bind] in Hrec; [ | discriminate ].
    injection Hrec as <-. eexists. split; [ reflexivity | ].
    destruct (truthy_int (GetFID f)); reflexivity. }
  destruct Hshape as (d & -> & Ht).
  rewrite parse_geo_past_decoders by (reflexivity || assumption).
  now rewrite (parse_geo_typed_mapping B d "Feature" Ht).
Qed.

Lemma feature_record_parses_witness :
  parse_geo Parcels.backend Parcels.first_record = Ok Parcels.first_record.
Proof.
  apply (feature_record_parses Parcels.backend Parcels.first).
  - reflexivity.
  - apply Parcels.parcels_wkb_declines.
  - apply Parcels.parcels_wkt_declines.
Defined.

End RecordSpec.

(** ** Sequences of records *)

Module SequenceSpec.

Import Py Ingest IngestSpec RecordSpec.
Local Open Scope string_scope.
Local Open Scope py_scope.

Section WithBackend.

Variable B : backend.

Lemma pulls_after_stop (g : generator) (k : nat) :
  next B g = (StopIteration, Exhausted) ->
  pulls B k g = repeat StopIteration k.
Proof.
  intros Hg. destruct k as [| k]; [ reflexivity | ].
  cbn [pulls repeat]. rewrite Hg. now rewrite pulls_exhausted.
Qed.

(** A generator that is about to run the loop of [ogr_records] over
    features that all convert yields their records and stops. *)
Lemma ogr_loop_all (feats : list feature) (recs : list pyobj) (k : nat) :
  Forall2 (fun f r => feature_to_geojson B f = Ok r) feats recs ->
  forall g, next B g = ogr_records_loop B feats ->
  pulls B (List.length recs + k) g
  = (map Yielded recs ++ repeat StopIteration k)%list.
Proof.
  induction 1 as [| f r feats recs Hf _ IH]; intros g Hg.
  - apply pulls_after_stop. exact Hg.
  - cbn [List.length Nat.add pulls map app]. rewrite Hg.
    cbn [ogr_records_loop]. rewrite Hf. f_equal. apply IH. reflexivity.
Qed.

(** The same for the loop of [geo_records] over items that all parse. *)
Lemma geo_loop_all (items : list pyobj) (recs : list pyobj) (k : nat) :
  Forall2 (fun item r => parse_geo B item = Ok r) items recs ->
  forall g, next B g = geo_records_loop B items ->
  pulls B (List.length recs + k) g
  = (map Yielded recs ++ repeat StopIteration k)%list.
Proof.
  induction 1 as [| item r items recs Hitem _ IH]; intros g Hg.
  - apply pulls_after_stop. exact Hg.
  - cbn [List.length Nat.add pulls map app]. rewrite Hg.
    cbn [geo_records_loop]. rewrite Hitem. f_equal. apply IH. reflexivity.
Qed.

Lemma get_features_text (s : string) (layer_num : Z) :
  get_features B (PStr s) layer_num
  = match ogr_Open B s with
    | Some ds =>
        match GetLayer ds layer_num with
        | Some lyr =>
            Ok (IterGen (ogr_records (PStr s) layer_num), "ogr",
                LayerSpatialReference (GetSpatialRef lyr))
        | None => single_geo B (PStr s) EmptySpatialReference
        end
    | None => single_geo B (PStr s) EmptySpatialReference
    end.
Proof.
  unfold get_features, ogr_srs, get_ogr_ds.
  destruct (ogr_Open B s) as [ds |]; cbn [bind]; [ | reflexivity ].
  destruct (GetLayer ds layer_num); reflexivity.
Qed.

End WithBackend.

(** *** File-backed layers *)

(** For a path that opens, a layer that exists and reports a count other
    than zero, and features that all convert, [get_features] returns
    strategy [ogr] with the spatial reference of the layer, and the
    sequence yields the record of every feature once, in the order of
    the layer, and then stops. *)
Theorem ogr_layer_records (B : backend) (path : string) (layer_num : Z)
    (ds : datasource) (lyr : layer) (records : list pyobj) :
  ogr_Open B path = Some ds ->
  GetLayer ds layer_num = Some lyr ->
  GetFeatureCount lyr <> 0%Z ->
  Forall2 (fun f r => feature_to_geojson B f = Ok r)
    (layer_features lyr) records ->
  exists features_iter,
    get_features B (PStr path) layer_num
    = Ok (features_iter, "ogr", LayerSpatialReference (GetSpatialRef lyr))
    /\ forall k, pulls B (List.length records + k) (iter features_iter)
                 = (map Yielded records ++ repeat StopIteration k)%list.
Proof.
  intros Hopen Hlayer Hcount Hrecs.
  exists (IterGen (ogr_records (PStr path) layer_num)). split.
  - rewrite get_features_text, Hopen, Hlayer. reflexivity.
  - intros k. apply (ogr_loop_all B (layer_features lyr)); [ exact Hrecs | ].
    cbn [iter ogr_records next]. unfold ogr_records_enter, get_ogr_ds.
    rewrite Hopen. cbn [bind]. rewrite Hlayer. cbn [on_layer bind].
    destruct (Z.eqb_spec (GetFeatureCount lyr) 0); [ contradiction | ].
    reflexivity.
Qed.

Lemma ogr_layer_records_witness :
  exists features_iter,
    get_features Parcels.backend (PStr "parcels.shp") 0
    = Ok (features_iter, "ogr", LayerSpatialReference (Some "EPSG:4326"))
    /\ forall k,
         pulls Parcels.backend
           (List.length [Parcels.first_record; Parcels.second_record] + k)
           (iter features_iter)
         = (map Yielded [Parcels.first_record; Parcels.second_record]
            ++ repeat StopIteration k)%list.
Proof.
  apply (ogr_layer_records Parcels.backend "parcels.shp" 0
           [Parcels.parcels] Parcels.parcels).
  - reflexivity.
  - reflexivity.
  - discriminate.
  - repeat constructor.
Defined.

(** A text that the driver does not open, or opens without a layer at the
    requested index, is handled as a single geometry: [get_features]
    does what [parse_geo] does on the text, and a parsed text comes back
    as a one-record list with the empty spatial reference. *)
Theorem text_falls_back_to_parse (B : backend) (s : string) (layer_num : Z) :
  ogr_Open B s = None
  \/ (exists ds, ogr_Open B s = Some ds /\ GetLayer ds layer_num = None) ->
  get_features B (PStr s) layer_num
  = match parse_geo B (PStr s) with
    | Ok feat => Ok (IterList [feat], "single_geo", EmptySpatialReference)
    | Raise e => Raise e
    end.
Proof.
  intros [Hopen | (ds & Hopen & Hlayer)];
    rewrite get_features_text, Hopen, ?Hlayer; reflexivity.
Qed.

Lemma text_falls_back_to_parse_witness :
  get_features Parcels.backend (PStr "parcels.shp") 3
  = match parse_geo Parcels.backend (PStr "parcels.shp") with
    | Ok feat => Ok (IterList [feat], "single_geo", EmptySpatialReference)
    | Raise e => Raise e
    end.
Proof.
  apply (text_falls_back_to_parse Parcels.backend "parcels.shp" 3).
  right. exists [Parcels.parcels]. split; reflexivity.
Defined.

(** [get_features] on a text never surfaces the failure of the driver:
    when it raises, the driver did not open the text or had no layer at
    the index, and the exception is the one [parse_geo] raises on the
    text. *)
Theorem text_failure_is_parse_failure (B : backend) (s : string)
    (layer_num : Z) (e : exn) :
  get_features B (PStr s) layer_num = Raise e ->
  parse_geo B (PStr s) = Raise e
  /\ (ogr_Open B s = None
      \/ exists ds, ogr_Open B s = Some ds /\ GetLayer ds layer_num = None).
Proof.
  rewrite get_features_text. unfold single_geo.
  destruct (ogr_Open B s) as [ds |] eqn:Hopen.
  - destruct (GetLayer ds layer_num) as [lyr |] eqn:Hlayer; [ discriminate | ].
    destruct (parse_geo B (PStr s)); cbn [bind]; [ discriminate | ].
    intros E. injection E as ->.
    split; [ reflexivity | right; exists ds; split; trivial ].
  - destruct (parse_geo B (PStr s)); cbn [bind]; [ discriminate | ].
    intros E. injection E as ->. split; [ reflexivity | left; reflexivity ].
Qed.

Lemma text_failure_is_parse_failure_witness :
  parse_geo Parcels.backend (PStr "parcels.shp")
  = Raise (RasterStatsError "Can't parse %s as a geo-like object"
             (Some (PStr "parcels.shp")))
  /\ (ogr_Open Parcels.backend "parcels.shp" = None
      \/ exists ds, ogr_Open Parcels.backend "parcels.shp" = Some ds
                    /\ GetLayer ds 3 = None).
Proof.
  apply (text_failure_is_parse_failure Parcels.backend "parcels.shp" 3).
  reflexivity.
Defined.

(** *** Objects with a geo interface *)

(** An object whose geo interface is a feature collection of two
    polygons. *)
Definition two_polygons_interface : pyobj :=
  PDict [("type", PStr "FeatureCollection");
         ("features", PList [Sample.polygon; Sample.polygon])].

Definition two_polygons : pyobj := PGeo two_polygons_interface.

(** For an object whose geo interface is a mapping with a [type] that
    reads [featurecollection] once lowered, whatever its case, and a list
    of [features] that all parse, [get_features] returns strategy
    [geo_featurecollection] with the empty spatial reference, and the
    sequence yields one record per member, in the order of the list, and
    then stops. *)
Theorem feature_collection_records (B : backend) (d : list (string * pyobj))
    (type : string) (members records : list pyobj) (layer_num : Z) :
  dict_get d "type" = Some (PStr type) ->
  lower_string type = "featurecollection" ->
  dict_get d "features" = Some (PList members) ->
  Forall2 (fun item r => parse_geo B item = Ok r) members records ->
  exists features_iter,
    get_features B (PGeo (PDict d)) layer_num
    = Ok (features_iter, "geo_featurecollection", EmptySpatialReference)
    /\ forall k, pulls B (List.length records + k) (iter features_iter)
                 = (map Yielded records ++ repeat StopIteration k)%list.
Proof.
  intros Ht Hlower Hfeatures Hparse.
  exists (IterGen (geo_records (PList members))). split.
  - unfold get_features, getitem. rewrite Ht. cbn [bind lower eq_literal].
    rewrite Hlower. cbn [String.eqb Ascii.eqb Bool.eqb].
    rewrite Hfeatures. reflexivity.
  - intros k. apply (geo_loop_all B members); [ exact Hparse | reflexivity ].
Qed.

Lemma feature_collection_records_witness :
  exists features_iter,
    get_features Sample.backend two_polygons 0
    = Ok (features_iter, "geo_featurecollection", EmptySpatialReference)
    /\ forall k,
         pulls Sample.backend
           (List.length [Sample.polygon; Sample.polygon] + k)
           (iter features_iter)
         = (map Yielded [Sample.polygon; Sample.polygon]
            ++ repeat StopIteration k)%list.
Proof.
  apply (feature_collection_records Sample.backend
           [("type", PStr "FeatureCollection");
            ("features", PList [Sample.polygon; Sample.polygon])]
           "FeatureCollection" [Sample.polygon; Sample.polygon]).
  - reflexivity.
  - reflexivity.
  - reflexivity.
  - repeat constructor.
Defined.

(** An object with a malformed geo interface fails at the call, not on
    the sequence: [TypeError] when the interface is [None], a number or a
    list, [KeyError] when it is a mapping without [type], or a feature
    collection without [features], and [AttributeError] when its [type]
    is neither text nor bytes. *)
Theorem malformed_geo_interface (B : backend) (layer_num : Z) :
  (forall geo,
     match geo with PNone | PInt _ | PList _ => True | _ => False end ->
     get_features B (PGeo geo) layer_num = Raise TypeError)
  /\ (forall d,
        dict_get d "type" = None ->
        get_features B (PGeo (PDict d)) layer_num = Raise (KeyError "type"))
  /\ (forall d type,
        dict_get d "type" = Some type ->
        match type with PStr _ | PBytes _ => False | _ => True end ->
        get_features B (PGeo (PDict d)) layer_num = Raise AttributeError)
  /\ (forall d type,
        dict_get d "type" = Some (PStr type) ->
        lower_string type = "featurecollection" ->
        dict_get d "features" = None ->
        get_features B (PGeo (PDict d)) layer_num
        = Raise (KeyError "features")).
Proof.
  repeat match goal with |- _ /\ _ => split end.
  - intros geo Hkind. destruct geo; (contradiction || reflexivity).
  - intros d Ht. unfold get_features, getitem. now rewrite Ht.
  - intros d type Ht Hkind. unfold get_features, getitem. rewrite Ht.
    destruct type; (contradiction || reflexivity).
  - intros d type Ht Hlower Hfeatures. unfold get_features, getitem.
    rewrite Ht. cbn [bind lower eq_literal]. rewrite Hlower.
    cbn [String.eqb Ascii.eqb Bool.eqb]. now rewrite Hfeatures.
Qed.

(** An object with a geo interface that is not a feature collection is a
    single geometry whose record is the interface itself, unchecked:
    [parse_geo] returns the interface of such an object whatever it
    holds. *)
Theorem geo_object_record (B : backend) (d : list (string * pyobj))
    (type : string) (layer_num : Z) :
  dict_get d "type" = Some (PStr type) ->
  lower_string type <> "featurecollection" ->
  get_features B (PGeo (PDict d)) layer_num
  = Ok (IterList [PDict d], "single_geo", EmptySpatialReference).
Proof.
  intros Ht Hlower. unfold get_features, getitem. rewrite Ht.
  cbn [bind lower eq_literal].
  destruct (String.eqb_spec (lower_string type) "featurecollection");
    [ contradiction | reflexivity ].
Qed.

Lemma geo_object_record_witness :
  get_features Sample.backend
    (PGeo (PDict [("type", PStr "Sphere"); ("radius", PInt 2)])) 0
  = Ok (IterList [PDict [("type", PStr "Sphere"); ("radius", PInt 2)]],
        "single_geo", EmptySpatialReference).
Proof.
  apply (geo_object_record Sample.backend
           [("type", PStr "Sphere"); ("radius", PInt 2)] "Sphere" 0).
  - reflexivity.
  - discriminate.
Defined.

(** *** Iterables *)

(** For a list whose items all parse, the empty list included,
    [get_features] returns strategy [iter_geo] with the empty spatial
    reference, and the sequence yields the record of every item once, in
    the order of the list, and then stops. *)
Theorem iterable_records (B : backend) (items records : list pyobj)
    (layer_num : Z) :
  Forall2 (fun item r => parse_geo B item = Ok r) items records ->
  exists features_iter,
    get_features B (PList items) layer_num
    = Ok (features_iter, "iter_geo", EmptySpatialReference)
    /\ forall k, pulls B (List.length records + k) (iter features_iter)
                 = (map Yielded records ++ repeat StopIteration k)%list.
Proof.
  intros Hparse. exists (IterGen (geo_records (PList items))).
  split; [ reflexivity | ].
  intros k. apply (geo_loop_all B items); [ exact Hparse | reflexivity ].
Qed.

Lemma iterable_records_witness :
  exists features_iter,
    get_features Sample.backend (PList [Sample.polygon; two_polygons]) 0
    = Ok (features_iter, "iter_geo", EmptySpatialReference)
    /\ forall k,
         pulls Sample.backend
           (List.length [Sample.polygon; two_polygons_interface] + k)
           (iter features_iter)
         = (map Yielded [Sample.polygon; two_polygons_interface]
            ++ repeat StopIteration k)%list.
Proof.
  apply (iterable_records Sample.backend [Sample.polygon; two_polygons]).
  repeat constructor.
Defined.

(** [None] and numbers are not iterable, yet [get_features] returns for
    them, with strategy [iter_geo]: the [TypeError] is raised by the
    first [next()] on the sequence, which is exhausted afterwards. *)
Theorem non_iterable_deferred (B : backend) (vectors : pyobj) (layer_num : Z) :
  match vectors with PNone | PInt _ => True | _ => False end ->
  exists features_iter,
    get_features B vectors layer_num
    = Ok (features_iter, "iter_geo", EmptySpatialReference)
    /\ forall k, pulls B (S k) (iter features_iter)
                 = Raised TypeError :: repeat StopIteration k.
Proof.
  intros Hkind. exists (IterGen (geo_records vectors)).
  destruct vectors; try contradiction;
    (split; [ reflexivity | ]);
    intros k; cbn [iter geo_records pulls next iter_items];
    now rewrite pulls_exhausted.
Qed.

Lemma non_iterable_deferred_witness :
  exists features_iter,
    get_features Sample.backend (PInt 5) 0
    = Ok (features_iter, "iter_geo", EmptySpatialReference)
    /\ forall k, pulls Sample.backend (S k) (iter features_iter)
                 = Raised TypeError :: repeat StopIteration k.
Proof.
  apply (non_iterable_deferred Sample.backend (PInt 5) 0). exact I.
Defined.

(** *** What a call returns *)

(** Whatever [get_features] returns is of one of four shapes.  Strategy
    [ogr]: the input is a text, the sequence is the generator of
    [ogr_records] on it and the spatial reference is the layer's.
    Strategy [single_geo]: the sequence is a list of exactly one record,
    the one [parse_geo] returns for the input.  Strategy
    [geo_featurecollection]: the input has a geo interface and the
    sequence is the generator of [geo_records] on its [features].
    Strategy [iter_geo]: the sequence is the generator of [geo_records]
    on the input.  Outside [ogr] the spatial reference is the empty
    one. *)
Theorem get_features_shapes (B : backend) (vectors : pyobj) (layer_num : Z)
    (features_iter : features_iter) (strategy : string)
    (spatial_ref : spatial_reference) :
  get_features B vectors layer_num = Ok (features_iter, strategy, spatial_ref) ->
  (strategy = "ogr"
   /\ features_iter = IterGen (ogr_records vectors layer_num)
   /\ (exists s, vectors = PStr s)
   /\ exists srs, spatial_ref = LayerSpatialReference srs)
  \/ (strategy = "single_geo"
      /\ spatial_ref = EmptySpatialReference
      /\ exists feat,
           features_iter = IterList [feat] /\ parse_geo B vectors = Ok feat)
  \/ (strategy = "geo_featurecollection"
      /\ spatial_ref = EmptySpatialReference
      /\ exists geo features,
           vectors = PGeo geo /\ getitem geo "features" = Ok features
           /\ features_iter = IterGen (geo_records features))
  \/ (strategy = "iter_geo"
      /\ spatial_ref = EmptySpatialReference
      /\ features_iter = IterGen (geo_records vectors)).
Proof.
  assert (Hsingle : forall v,
    single_geo B v EmptySpatialReference = Ok (features_iter, strategy, spatial_ref) ->
    strategy = "single_geo" /\ spatial_ref = EmptySpatialReference
    /\ exists feat, features_iter = IterList [feat] /\ parse_geo B v = Ok feat).
  { intros v. unfold single_geo.
    destruct (parse_geo B v) as [feat | e]; cbn [bind]; [ | discriminate ].
    intros E. injection E as <- <- <-. repeat split. now exists feat. }
  destruct vectors as [| i | s | b | items | d | geo].
  - intros E. injection E as <- <- <-. right; right; right. repeat split.
  - intros E. injection E as <- <- <-. right; right; right. repeat split.
  - rewrite get_features_text.
    destruct (ogr_Open B s) as [ds |];
      [ destruct (GetLayer ds layer_num) as [lyr |] | ].
    + intros E. injection E as <- <- <-. left.
      repeat split; eexists; reflexivity.
    + intros E. right; left. exact (Hsingle _ E).
    + intros E. right; left. exact (Hsingle _ E).
  - intros E. right; left. exact (Hsingle _ E).
  - intros E. injection E as <- <- <-. right; right; right. repeat split.
  - intros E. right; left. exact (Hsingle _ E).
  - unfold get_features.
    destruct (getitem geo "type") as [type | e]; cbn [bind]; [ | discriminate ].
    destruct (lower type) as [geotype | e]; cbn [bind]; [ | discriminate ].
    destruct (eq_literal geotype "featurecollection").
    + destruct (getitem geo "features") as [features | e] eqn:Hf;
        cbn [bind]; [ | discriminate ].
      intros E. injection E as <- <- <-. right; right; left.
      repeat split. exists geo, features. repeat split. exact Hf.
    + intros E. right; left. exact (Hsingle _ E).
Qed.

Lemma get_features_shapes_witness :
  ("single_geo" = "ogr"
   /\ IterList [Sample.polygon] = IterGen (ogr_records Sample.polygon 0)
   /\ (exists s, Sample.polygon = PStr s)
   /\ exists srs, EmptySpatialReference = LayerSpatialReference srs)
  \/ ("single_geo" = "single_geo"
      /\ EmptySpatialReference = EmptySpatialReference
      /\ exists feat,
           IterList [Sample.polygon] = IterList [feat]
           /\ parse_geo Sample.backend Sample.polygon = Ok feat)
  \/ ("single_geo" = "geo_featurecollection"
      /\ EmptySpatialReference = EmptySpatialReference
      /\ exists geo features,
           Sample.polygon = PGeo geo /\ getitem geo "features" = Ok features
           /\ IterList [Sample.polygon] = IterGen (geo_records features))
  \/ ("single_geo" = "iter_geo"
      /\ EmptySpatialReference = EmptySpatialReference
      /\ IterList [Sample.polygon] = IterGen (geo_records Sample.polygon)).
Proof.
  apply (get_features_shapes Sample.backend Sample.polygon 0). reflexivity.
Defined.

(** *** Generators of [ogr_records] *)

(** Creating the generator of [ogr_records] checks nothing; its first
    [next()] raises [OGRError] naming the source when the source is
    [None], a number, bytes, a list, a mapping or an object with a geo
    interface, or a text that the driver does not open, and
    [AttributeError] when the data source has layers but none at the
    index; the generator is exhausted afterwards. *)
Theorem ogr_records_first_advance (B : backend) (layer_num : Z) :
  (forall vector,
     match vector with
     | PNone | PInt _ | PBytes _ | PList _ | PDict _ | PGeo _ => True
     | PStr _ => False
     end ->
     next B (ogr_records vector layer_num)
     = (Raised (OGRError "OGR cannot open %r: not a string" (Some vector)),
        Exhausted))
  /\ (forall path,
        ogr_Open B path = None ->
        next B (ogr_records (PStr path) layer_num)
        = (Raised (OGRError "OGR cannot open %r" (Some (PStr path))),
           Exhausted))
  /\ (forall path ds,
        ogr_Open B path = Some ds -> ds <> [] ->
        GetLayer ds layer_num = None ->
        next B (ogr_records (PStr path) layer_num)
        = (Raised AttributeError, Exhausted)).
Proof.
  repeat match goal with |- _ /\ _ => split end.
  - intros vector Hkind. destruct vector; (contradiction || reflexivity).
  - intros path Hopen. cbn [ogr_records next].
    unfold ogr_records_enter, get_ogr_ds. now rewrite Hopen.
  - intros path ds Hopen _ Hlayer. cbn [ogr_records next].
    unfold ogr_records_enter, get_ogr_ds. rewrite Hopen. cbn [bind].
    now rewrite Hlayer.
Qed.

(** The generator of [ogr_records] stops at the first feature that does
    not convert: the records of the features before it are yielded in
    order, the next [next()] raises what [feature_to_geojson] raised, and
    every later one is [StopIteration]. *)
Theorem ogr_records_fail_fast (B : backend) (path : string) (layer_num : Z)
    (ds : datasource) (lyr : layer) (before after : list feature)
    (records : list pyobj) (bad : feature) (e : exn) (k : nat) :
  ogr_Open B path = Some ds ->
  GetLayer ds layer_num = Some lyr ->
  GetFeatureCount lyr <> 0%Z ->
  layer_features lyr = (before ++ bad :: after)%list ->
  Forall2 (fun f r => feature_to_geojson B f = Ok r) before records ->
  feature_to_geojson B bad = Raise e ->
  pulls B (List.length records + S k) (ogr_records (PStr path) layer_num)
  = (map Yielded records ++ Raised e :: repeat StopIteration k)%list.
Proof.
  intros Hopen Hlayer Hcount Hfeats Hbefore Hbad.
  assert (Hloop : forall feats recs,
             Forall2 (fun f r => feature_to_geojson B f = Ok r) feats recs ->
             forall g,
               next B g = ogr_records_loop B (feats ++ bad :: after)%list ->
               pulls B (List.length recs + S k) g
               = (map Yielded recs ++ Raised e :: repeat StopIteration k)%list).
  { induction 1 as [| f r feats recs Hf _ IH]; intros g Hg.
    - cbn [List.length Nat.add pulls map app]. rewrite Hg.
      cbn [app ogr_records_loop]. rewrite Hbad.
      now rewrite pulls_exhausted.
    - cbn [List.length Nat.add pulls map app]. rewrite Hg.
      cbn [app ogr_records_loop]. rewrite Hf.
      f_equal. apply IH. reflexivity. }
  apply (Hloop before records Hbefore).
  cbn [ogr_records next]. unfold ogr_records_enter, get_ogr_ds.
  rewrite Hopen. cbn [bind]. rewrite Hlayer. cbn [on_layer bind].
  destruct (Z.eqb_spec (GetFeatureCount lyr) 0); [ contradiction | ].
  now rewrite Hfeats.
Qed.

(** A driver that opens [broken.shp]: the second of its three features
    has a geometry text that is not JSON. *)
Module Broken.

Definition torn : feature :=
  {| GetGeometryRef := Some "{"; GetFID := 1; fields := [] |}.

Definition layer : layer :=
  {| GetFeatureCount := 3;
     layer_features := [Parcels.second; torn; Parcels.first];
     GetSpatialRef := None |}.

Definition backend : backend :=
  {| wkb_loads := wkb_loads Sample.backend;
     wkt_loads := wkt_loads Sample.backend;
     json_decode := json_decode Parcels.backend;
     ogr_Open path :=
       if String.eqb path "broken.shp" then Some [layer] else None |}.

End Broken.

Lemma ogr_records_fail_fast_witness :
  pulls Broken.backend (List.length [Parcels.second_record] + 2)
    (ogr_records (PStr "broken.shp") 0)
  = (map Yielded [Parcels.second_record]
     ++ Raised ValueError :: repeat StopIteration 1)%list.
Proof.
  apply (ogr_records_fail_fast Broken.backend "broken.shp" 0
           [Broken.layer] Broken.layer [Parcels.second] [Parcels.first]
           [Parcels.second_record] Broken.torn ValueError 1).
  - reflexivity.
  - reflexivity.
  - discriminate.
  - reflexivity.
  - repeat constructor.
  - reflexivity.
Defined.

(** *** Encoded geometries *)

(** A decoder that knows the WKB bytes and the WKT text of one point. *)
Module Shapes.

Definition point_wkb : string := "0101000000".
Definition point_wkt : string := "POINT (1 2)".

Definition backend : backend :=
  {| wkb_loads thing :=
       match thing with
       | PBytes b =>
           if String.eqb b point_wkb then Ok (PGeo Parcels.point)
           else Raise ReadingError
       | PStr _ => Raise ReadingError
       | _ => Raise TypeError
       end;
     wkt_loads thing :=
       match thing with
       | PStr t =>
           if String.eqb t point_wkt then Ok (PGeo Parcels.point)
           else Raise ReadingError
       | PBytes _ => Raise ReadingError
       | _ => Raise AttributeError
       end;
     json_decode := json_decode Sample.backend;
     ogr_Open := ogr_Open Sample.backend |}.

End Shapes.

(** Bytes that [wkb.loads] decodes are a single geometry whose record is
    the geo interface of the decoded shape; no later attempt of
    [parse_geo] is consulted. *)
Theorem wkb_bytes_record (B : backend) (b : string) (geo : pyobj)
    (layer_num : Z) :
  wkb_loads B (PBytes b) = Ok (PGeo geo) ->
  get_features B (PBytes b) layer_num
  = Ok (IterList [geo], "single_geo", EmptySpatialReference).
Proof.
  intros Hwkb. unfold get_features, single_geo, parse_geo.
  cbn [geo_interface try_except caught class_of existsb exn_class_eqb orb].
  rewrite Hwkb. reflexivity.
Qed.

Lemma wkb_bytes_record_witness :
  get_features Shapes.backend (PBytes Shapes.point_wkb) 0
  = Ok (IterList [Parcels.point], "single_geo", EmptySpatialReference).
Proof.
  apply (wkb_bytes_record Shapes.backend Shapes.point_wkb Parcels.point 0).
  reflexivity.
Defined.

(** A text that the driver does not open, that [wkb.loads] declines and
    that [wkt.loads] decodes is a single geometry whose record is the
    geo interface of the decoded shape. *)
Theorem wkt_text_record (B : backend) (s : string) (geo : pyobj)
    (layer_num : Z) :
  ogr_Open B s = None ->
  wkb_declines B (PStr s) ->
  wkt_loads B (PStr s) = Ok (PGeo geo) ->
  get_features B (PStr s) layer_num
  = Ok (IterList [geo], "single_geo", EmptySpatialReference).
Proof.
  intros Hopen (e & Hwkb & Hc) Hwkt.
  rewrite get_features_text, Hopen. unfold single_geo, parse_geo.
  cbn [geo_interface].
  rewrite (try_except_caught _ _ [CAttributeError] AttributeError eq_refl)
    by reflexivity.
  rewrite (try_except_caught _ _ [CReadingError; CTypeError] e);
    [ | now rewrite Hwkb | exact Hc ].
  rewrite Hwkt. reflexivity.
Qed.

Lemma wkt_text_record_witness :
  get_features Shapes.backend (PStr Shapes.point_wkt) 0
  = Ok (IterList [Parcels.point], "single_geo", EmptySpatialReference).
Proof.
  apply (wkt_text_record Shapes.backend Shapes.point_wkt Parcels.point 0).
  - reflexivity.
  - eexists. split; reflexivity.
  - reflexivity.
Defined.

End SequenceSpec.

(** ** Percentile names *)

Module Percentile.

Local Open Scope string_scope.
Local Open Scope py_scope.

(** A Python float, as far as comparisons see it: a finite value, an
    infinity or NaN. *)
Inductive pyfloat : Type :=
| Finite (q : Q)
| PosInf
| NegInf
| NaN.

(** [x > y] and [x < y] against a finite [y]; every comparison with NaN
    is false. *)
Definition float_gt (x : pyfloat) (y : Q) : bool :=
  match x with
  | Finite q => negb (Qle_bool q y)
  | PosInf => true
  | NegInf | NaN => false
  end.

Definition float_lt (x : pyfloat) (y : Q) : bool :=
  match x with
  | Finite q => negb (Qle_bool y q)
  | NegInf => true
  | PosInf | NaN => false
  end.

(** [s.startswith(prefix)] *)
Fixpoint startswith (s prefix : string) {struct prefix} : bool :=
  match prefix with
  | EmptyString => true
  | String p prefix' =>
      match s with
      | EmptyString => false
      | String c s' => Ascii.eqb c p && startswith s' prefix'
      end
  end.

(** [s.replace(old, '')] for a non-empty [old]: the occurrences of [old]
    are found from the left, without overlap, and dropped.  [skip]
    counts the characters of a found occurrence still to drop. *)
Fixpoint remove_from (old : string) (skip : nat) (s : string) : string :=
  match s with
  | EmptyString => EmptyString
  | String c rest =>
      match skip with
      | S skip' => remove_from old skip' rest
      | O =>
          if startswith s old
          then remove_from old (String.length old - 1) rest
          else String c (remove_from old 0 rest)
      end
  end.

Definition remove (s old : string) : string := remove_from old 0 s.

Section WithFloat.

(** [float] on a text: the number it reads, [None] for the [ValueError]
    of a text that is no number. *)
Variable float : string -> option pyfloat.

Definition get_percentile (stat : string) : result pyfloat :=
  if negb (startswith stat "percentile_") then Raise ValueError
  else
    let qstr := remove stat "percentile_" in
    match float qstr with
    | None => Raise ValueError
    | Some q =>
        if float_gt q 100 then Raise ValueError
        else if float_lt q 0 then Raise ValueError
        else Ok q
    end.

End WithFloat.

(** No character of [s] is [c]. *)
Fixpoint free_of (c : ascii) (s : string) : bool :=
  match s with
  | EmptyString => true
  | String c' rest => negb (Ascii.eqb c' c) && free_of c rest
  end.

(** A reader of unsigned decimal integers and of the text [nan]. *)
Module Reader.

Definition digit (c : ascii) : option Z :=
  let n := nat_of_ascii c in
  if (Nat.leb 48 n && Nat.leb n 57)%bool then Some (Z.of_nat (n - 48)) else None.

Fixpoint digits (acc : Z) (s : string) : option Z :=
  match s with
  | EmptyString => Some acc
  | String c rest =>
      match digit c with
      | Some d => digits (10 * acc + d) rest
      | None => None
      end
  end.

Definition float (s : string) : option pyfloat :=
  if String.eqb s "nan" then Some NaN
  else match s with
       | EmptyString => None
       | _ => option_map (fun n => Finite (inject_Z n)) (digits 0 s)
       end.

End Reader.

End Percentile.

Module PercentileSpec.

Import Percentile.
Local Open Scope string_scope.

Lemma marker_starts (t : string) :
  startswith ("percentile_" ++ t) "percentile_" = true.
Proof. reflexivity. Qed.

Lemma remove_marker (t : string) :
  remove ("percentile_" ++ t) "percentile_" = remove t "percentile_".
Proof. reflexivity. Qed.

Lemma remove_app_free (a s : string) :
  free_of "p" a = true ->
  remove (a ++ s) "percentile_" = a ++ remove s "percentile_".
Proof.
  unfold remove. induction a as [| c a IH]; intros Hfree.
  - reflexivity.
  - cbn [free_of] in Hfree. apply andb_prop in Hfree as [Hc Ha].
    apply negb_true_iff in Hc.
    change ((String c a ++ s)) with (String c (a ++ s)).
    cbn [remove_from startswith]. rewrite Hc. cbn [andb].
    now rewrite (IH Ha).
Qed.

Lemma remove_free (t : string) :
  free_of "p" t = true -> remove t "percentile_" = t.
Proof.
  intros Hfree.
  assert (E : t = t ++ EmptyString).
  { clear Hfree. induction t as [| c t IH]; [ reflexivity | ].
    cbn [append]. now rewrite <- IH. }
  rewrite E at 1. rewrite (remove_app_free t EmptyString Hfree).
  cbn [remove remove_from]. now rewrite <- E.
Qed.

(** A value of a percentile and the range test on it. *)
Definition in_range (q : pyfloat) : Prop :=
  match q with
  | Finite v => (0 <= v <= 100)%Q
  | NaN => True
  | PosInf | NegInf => False
  end.

Lemma range_tests (q : pyfloat) :
  float_gt q 100 = false /\ float_lt q 0 = false <-> in_range q.
Proof.
  destruct q as [v | | |]; cbn [float_gt float_lt in_range].
  - rewrite !negb_false_iff, !Qle_bool_iff. tauto.
  - split; [ intros [E _]; discriminate | contradiction ].
  - split; [ intros [_ E]; discriminate | contradiction ].
  - tauto.
Qed.

(** What [get_percentile] returns is the value that [float] reads in the
    name with every [percentile_] removed; the name starts with
    [percentile_], and the value is a finite number between 0 and 100,
    or NaN, which fails neither comparison.  An infinity is never
    returned. *)
Theorem percentile_in_range (float : string -> option pyfloat)
    (stat : string) (q : pyfloat) :
  get_percentile float stat = Ok q ->
  startswith stat "percentile_" = true
  /\ float (remove stat "percentile_") = Some q
  /\ in_range q.
Proof.
  unfold get_percentile.
  destruct (startswith stat "percentile_"); cbn [negb]; [ | discriminate ].
  destruct (float (remove stat "percentile_")) as [v |]; [ | discriminate ].
  destruct (float_gt v 100) eqn:Hgt; [ discriminate | ].
  destruct (float_lt v 0) eqn:Hlt; [ discriminate | ].
  intros E. injection E as <-.
  repeat split; try reflexivity. apply range_tests. now split.
Qed.

Lemma percentile_in_range_witness :
  startswith "percentile_50" "percentile_" = true
  /\ Reader.float (remove "percentile_50" "percentile_") = Some (Finite 50)
  /\ in_range (Finite 50).
Proof.
  apply (percentile_in_range Reader.float "percentile_50" (Finite 50)).
  reflexivity.
Defined.

(** [get_percentile] fails with [ValueError] only, in exactly three
    cases: the name does not start with [percentile_], what is left of
    it is not a number, or the number is above 100, below 0 or
    infinite. *)
Theorem percentile_failure (float : string -> option pyfloat)
    (stat : string) (e : exn) :
  get_percentile float stat = Raise e
  <-> e = ValueError
      /\ (startswith stat "percentile_" = false
          \/ float (remove stat "percentile_") = None
          \/ exists q, float (remove stat "percentile_") = Some q
                       /\ ~ in_range q).
Proof.
  unfold get_percentile.
  destruct (startswith stat "percentile_"); cbn [negb].
  - destruct (float (remove stat "percentile_")) as [v |].
    + destruct (float_gt v 100) eqn:Hgt; [ | destruct (float_lt v 0) eqn:Hlt ].
      * split; [ | now intros (-> & _) ].
        intros E. injection E as <-. split; [ reflexivity | ].
        right; right. exists v. split; [ reflexivity | ].
        intros Hr. apply range_tests in Hr as [Hr _]. congruence.
      * split; [ | now intros (-> & _) ].
        intros E. injection E as <-. split; [ reflexivity | ].
        right; right. exists v. split; [ reflexivity | ].
        intros Hr. apply range_tests in Hr as [_ Hr]. congruence.
      * split; [ discriminate | ].
        intros (_ & [Hs | [Hf | (q & Hq & Hr)]]); try discriminate.
        injection Hq as <-. exfalso. apply Hr, range_tests. now split.
    + split; [ | now intros (-> & _) ].
      intros E. injection E as <-. split; [ reflexivity | ]. right; left.
      reflexivity.
  - split; [ | now intros (-> & _) ].
    intros E. injection E as <-. split; [ reflexivity | ]. left. reflexivity.
Qed.

(** The happy path: a name made of [percentile_] and a text without the
    letter p that [float] reads as a number between 0 and 100 gives that
    number. *)
Theorem percentile_of_number (float : string -> option pyfloat) (t : string)
    (v : Q) :
  free_of "p" t = true ->
  float t = Some (Finite v) ->
  (0 <= v <= 100)%Q ->
  get_percentile float ("percentile_" ++ t) = Ok (Finite v).
Proof.
  intros Hfree Hfloat Hrange. unfold get_percentile.
  rewrite marker_starts. cbn [negb]. cbv zeta.
  rewrite remove_marker, (remove_free t Hfree), Hfloat.
  destruct (proj2 (range_tests (Finite v)) Hrange) as [-> ->].
  reflexivity.
Qed.

Lemma percentile_of_number_witness :
  get_percentile Reader.float ("percentile_" ++ "95") = Ok (Finite 95).
Proof.
  apply (percentile_of_number Reader.float "95" 95).
  - reflexivity.
  - reflexivity.
  - split; discriminate.
Defined.

(** [percentile_] is removed wherever it occurs, not at the front only:
    a name with a second [percentile_] inside is read as the name without
    it. *)
Theorem percentile_marker_removed_everywhere
    (float : string -> option pyfloat) (a b : string) :
  free_of "p" a = true -> free_of "p" b = true ->
  get_percentile float ("percentile_" ++ a ++ "percentile_" ++ b)
  = get_percentile float ("percentile_" ++ a ++ b).
Proof.
  intros Ha Hb. unfold get_percentile.
  rewrite !marker_starts. cbn [negb]. cbv zeta.
  rewrite !remove_marker, !(remove_app_free a _ Ha), remove_marker.
  reflexivity.
Qed.

Lemma percentile_marker_removed_everywhere_witness :
  get_percentile Reader.float ("percentile_" ++ "5" ++ "percentile_" ++ "0")
  = get_percentile Reader.float ("percentile_" ++ "5" ++ "0").
Proof.
  apply (percentile_marker_removed_everywhere Reader.float "5" "0");
    reflexivity.
Defined.

End PercentileSpec.
